(** * GesturePro: the gesture classifier and the per-frame stabiliser

    A shallow embedding of [detectGesture] (services/gestureRecognition.ts),
    of the [GestureType] enumeration (types.ts) and of the frame callback
    [processResults] of components/HandTracker.tsx, followed by the
    properties of the classification order, of the majority vote over the
    gesture buffer and of what a frame hands to [onGestureDetected]; then
    of [handleGestureUpdate] (App.tsx), which receives those calls, and of
    the zoom factor the scene derives from the hand position
    (components/Scene.tsx). *)

From Stdlib Require Import List ZArith Bool Lia Floats Sorted Permutation.
From Stdlib Require String.
Import ListNotations.

Set Implicit Arguments.
#[local] Set Warnings "-inexact-float".

(** ** Values *)

(** [enum GestureType] of types.ts.  The enumeration values are the strings
    'NONE', 'PUNCH', 'OPEN', 'PINCH', '2_FINGERS' and '3_FINGERS'; none of
    them is a canonical array index, so as keys of a JS object they are
    enumerated in the order in which they were first assigned. *)
Inductive GestureType : Type :=
  | NONE
  | PUNCH
  | OPEN
  | PINCH
  | TWO_FINGERS
  | THREE_FINGERS.

Definition GestureType_eq_dec (a b : GestureType) : {a = b} + {a <> b}.
Proof. decide equality. Defined.

(** [interface Landmark]: three JS numbers, that is IEEE 754 binary64. *)
Record Landmark : Type := mkLandmark { x : float; y : float; z : float }.

(** The object literal [{ x, y }] passed to [onGestureDetected]. *)
Record Position : Type := mkPosition { pos_x : float; pos_y : float }.

(** ** Exceptions

    The only exception the modelled code can raise is the [TypeError] of a
    property read on [undefined]. *)
Inductive exn (A : Type) : Type :=
  | Ok (a : A)
  | TypeError.
Arguments Ok {A} a.
Arguments TypeError {A}.

Definition bind {A B : Type} (m : exn A) (k : A -> exn B) : exn B :=
  match m with
  | Ok a => k a
  | TypeError => TypeError
  end.

Notation "x <- m ;; k" := (bind m (fun x => k))
  (at level 61, m at next level, right associativity).

(** [arr[i]] whose result is dereferenced later on: [undefined] past the end
    of the array, and the property read on it raises.  The raise is placed at
    the index; between the index and the first property read of each value
    the modelled functions do nothing observable, and every value they index
    is dereferenced before they return. *)
Definition at_index {A : Type} (arr : list A) (i : nat) : exn A :=
  match nth_error arr i with
  | Some a => Ok a
  | None => TypeError
  end.

(** ** The [Math] object

    ECMAScript leaves the accuracy of [Math.pow] and [Math.sqrt] to the
    implementation, so the classifier is defined over any such pair. *)
Class JSMath : Type := {
  Math_sqrt : float -> float;
  Math_pow : float -> float -> float
}.

(** ** services/gestureRecognition.ts *)

Section Classifier.
Context {M : JSMath}.

Definition getDistance (a b : Landmark) : float :=
  Math_sqrt (Math_pow (a.(x) - b.(x)) 2 + Math_pow (a.(y) - b.(y)) 2)%float.

(** The local helper [isExtended] of [detectGesture]. *)
Definition isExtended (tip mcp : Landmark) : bool :=
  (tip.(y) <? mcp.(y) - 0.02)%float.

(** [landmarks] is [None] for a [null] or [undefined] argument. *)
Definition detectGesture (landmarks : option (list Landmark)) : exn GestureType :=
  match landmarks with
  | None => Ok NONE
  | Some landmarks =>
    if (length landmarks <? 21)%nat then Ok NONE else
    thumbTip <- at_index landmarks 4 ;;
    indexTip <- at_index landmarks 8 ;;
    middleTip <- at_index landmarks 12 ;;
    ringTip <- at_index landmarks 16 ;;
    pinkyTip <- at_index landmarks 20 ;;
    indexMcp <- at_index landmarks 5 ;;
    middleMcp <- at_index landmarks 9 ;;
    ringMcp <- at_index landmarks 13 ;;
    pinkyMcp <- at_index landmarks 17 ;;
    let indexOpen := isExtended indexTip indexMcp in
    let middleOpen := isExtended middleTip middleMcp in
    let ringOpen := isExtended ringTip ringMcp in
    let pinkyOpen := isExtended pinkyTip pinkyMcp in
    let pinchDist := getDistance thumbTip indexTip in
    if (pinchDist <? 0.045)%float && negb middleOpen && negb ringOpen then
      Ok PINCH
    else if indexOpen && middleOpen && ringOpen && negb pinkyOpen then
      Ok THREE_FINGERS
    else if indexOpen && middleOpen && negb ringOpen && negb pinkyOpen then
      Ok TWO_FINGERS
    else
      palmCenter <- at_index landmarks 9 ;;
      let tips := [indexTip; middleTip; ringTip; pinkyTip] in
      let allClosed :=
        forallb (fun tip => (getDistance tip palmCenter <? 0.12)%float) tips in
      if allClosed then Ok PUNCH else
      let extendedCount :=
        length (filter (fun b : bool => b)
                       [indexOpen; middleOpen; ringOpen; pinkyOpen]) in
      if (4 <=? extendedCount)%nat then Ok OPEN else Ok NONE
  end.

End Classifier.

(** ** components/HandTracker.tsx *)

(** A JS object used as [Record<string, number>], keyed by the enumeration's
    strings: the properties in the order of their creation, which is the
    order [Object.entries] lists them in. *)
Definition JSRecord : Type := list (GestureType * Z).

(** [acc[k]]: [None] stands for [undefined]. *)
Fixpoint obj_get (acc : JSRecord) (k : GestureType) : option Z :=
  match acc with
  | [] => None
  | (k', v) :: rest => if GestureType_eq_dec k' k then Some v else obj_get rest k
  end.

(** [acc[k] = v]: an existing property keeps its place, a new one is added
    last. *)
Fixpoint obj_set (acc : JSRecord) (k : GestureType) (v : Z) : JSRecord :=
  match acc with
  | [] => [(k, v)]
  | (k', v') :: rest =>
      if GestureType_eq_dec k' k then (k', v) :: rest
      else (k', v') :: obj_set rest k v
  end.

(** [v || 0] on a number or [undefined]. *)
Definition or_zero (v : option Z) : Z :=
  match v with
  | Some c => if (c =? 0)%Z then 0%Z else c
  | None => 0%Z
  end.

Definition Object_entries (o : JSRecord) : list (GestureType * Z) := o.

(** [Array.prototype.sort] with a comparator.  The sort is stable (required
    since ES2019, and what the engines did before on arrays this short): an
    element is placed before the first element it does not compare greater
    than, so elements that compare equal keep their order. *)
Section Sort.
Variable A : Type.
Variable cmp : A -> A -> Z.

Fixpoint sort_insert (a : A) (sorted : list A) : list A :=
  match sorted with
  | [] => [a]
  | b :: rest =>
      if (cmp a b <=? 0)%Z then a :: b :: rest
      else b :: sort_insert a rest
  end.

Fixpoint Array_sort (l : list A) : list A :=
  match l with
  | [] => []
  | a :: rest => sort_insert a (Array_sort rest)
  end.
End Sort.

Definition BUFFER_SIZE : nat := 3.

Definition push (buf : list GestureType) (g : GestureType) : list GestureType :=
  buf ++ [g].

Definition shift (buf : list GestureType) : list GestureType := tl buf.

(** Lines 61-64: the append and the eviction. *)
Definition buffer_update (gestureBuffer : list GestureType) (rawGesture : GestureType)
  : list GestureType :=
  let pushed := push gestureBuffer rawGesture in
  if (BUFFER_SIZE <? length pushed)%nat then shift pushed else pushed.

(** The [reduce] of lines 66-69. *)
Definition mostFrequent (gestureBuffer : list GestureType) : JSRecord :=
  fold_left (fun acc curr => obj_set acc curr (or_zero (obj_get acc curr) + 1)%Z)
            gestureBuffer [].

Definition sortedEntries (gestureBuffer : list GestureType) : list (GestureType * Z) :=
  Array_sort (fun a b => (snd b - snd a)%Z) (Object_entries (mostFrequent gestureBuffer)).

(** [sortedEntries[0][0]]. *)
Definition stableGesture (gestureBuffer : list GestureType) : exn GestureType :=
  first <- at_index (sortedEntries gestureBuffer) 0 ;;
  Ok (fst first).

(** The argument of the MediaPipe callback: whether [results.image] is
    there, and [results.multiHandLandmarks] ([None] when absent). *)
Record Results : Type := mkResults {
  image : bool;
  multiHandLandmarks : option (list (list Landmark))
}.

(** What the callback reads of the component: whether [canvasRef.current] is
    set and whether [getContext('2d')] returned a context. *)
Record Canvas : Type := mkCanvas {
  canvasRef_current : bool;
  canvasCtx : bool
}.

(** One call of [onGestureDetected]. *)
Definition Call : Type := (GestureType * Position)%type.

Section Tracker.
Context {M : JSMath}.

(** [processResults]: the gesture buffer is threaded through, and the
    result lists the calls of [onGestureDetected] the frame made.  The
    drawing on the canvas is left out. *)
Definition processResults (canvas : Canvas) (gestureBuffer : list GestureType)
    (results : Results) : list GestureType * exn (list Call) :=
  if negb canvas.(canvasRef_current) || negb results.(image) then
    (gestureBuffer, Ok [])
  else if negb canvas.(canvasCtx) then
    (gestureBuffer, Ok [])
  else
    match results.(multiHandLandmarks) with
    | Some (landmarks :: _) =>
        match detectGesture (Some landmarks) with
        | TypeError => (gestureBuffer, TypeError)
        | Ok rawGesture =>
            match at_index landmarks 9 with
            | TypeError => (gestureBuffer, TypeError)
            | Ok palm =>
                let gestureBuffer' := buffer_update gestureBuffer rawGesture in
                (gestureBuffer',
                 stable <- stableGesture gestureBuffer' ;;
                 Ok [(stable, mkPosition palm.(x) palm.(y))])
            end
        end
    | _ => (gestureBuffer, Ok [(NONE, mkPosition 0.5 0.5)])
    end.
End Tracker.

(** The stabiliser of lines 61-74 over a run of frames with a hand: the
    buffer after the raw labels [raws] were fed one per frame, and the stable
    label computed at each of them. *)
Fixpoint feed (gestureBuffer : list GestureType) (raws : list GestureType)
  : list GestureType * list (exn GestureType) :=
  match raws with
  | [] => (gestureBuffer, [])
  | g :: rest =>
      let b := buffer_update gestureBuffer g in
      let '(b', outs) := feed b rest in
      (b', stableGesture b :: outs)
  end.

(** ** Notions the properties are stated with *)

(** The landmark at an anatomical index of a full frame. *)
Definition origin : Landmark := mkLandmark 0 0 0.
Definition landmark (landmarks : list Landmark) (i : nat) : Landmark :=
  nth i landmarks origin.

(** Number of occurrences of a label in a buffer. *)
Fixpoint occurrences (g : GestureType) (buf : list GestureType) : Z :=
  match buf with
  | [] => 0
  | h :: rest =>
      ((if GestureType_eq_dec h g then 1 else 0) + occurrences g rest)%Z
  end.

(** Position of the first occurrence of a label in a buffer (the length of
    the buffer when there is none). *)
Fixpoint first_index (g : GestureType) (buf : list GestureType) : nat :=
  match buf with
  | [] => 0
  | h :: rest => if GestureType_eq_dec h g then 0 else S (first_index g rest)
  end.

(** The [n] most recent elements of a history. *)
Definition lastn {A : Type} (n : nat) (l : list A) : list A :=
  skipn (length l - n) l.

(** A [Math] object for the concrete frames below: the square root of
    IEEE 754 and, for the one exponent the classifier passes, the rounded
    product (NaN stands for the exponents it never passes). *)
Definition ieee_Math : JSMath :=
  {| Math_sqrt := PrimFloat.sqrt;
     Math_pow := fun b e => if (e =? 2)%float then (b * b)%float else nan |}.

(** A frame of 21 landmarks, all at [palm] except the thumb tip (4) and the
    four fingertips (8, 12, 16, 20). *)
Definition frame (palm thumb index middle ring pinky : Landmark) : list Landmark :=
  let c := palm in
  [c; c; c; c; thumb; c; c; c; index; c; c; c; middle; c; c; c; ring;
   c; c; c; pinky].

(** The centre of the image, and points 0.05 and 0.3 above it. *)
Definition centre : Landmark := mkLandmark 0.5 0.5 0.
Definition raised : Landmark := mkLandmark 0.5 0.45 0.
Definition far_raised : Landmark := mkLandmark 0.5 0.2 0.
Definition corner : Landmark := mkLandmark 0.25 0.75 0.

(** The hands of the concrete frames: every point on the palm centre; the
    four fingertips 0.05 above it; the four fingertips 0.3 above it; index,
    middle and ring tips 0.05 above it; every point at (0.25, 0.75). *)
Definition closed_hand : list Landmark :=
  frame centre centre centre centre centre centre.
Definition small_open_hand : list Landmark :=
  frame centre centre raised raised raised raised.
Definition open_hand : list Landmark :=
  frame centre centre far_raised far_raised far_raised far_raised.
Definition small_three_fingers : list Landmark :=
  frame centre centre raised raised raised centre.
Definition gathered_hand : list Landmark :=
  frame corner corner corner corner corner corner.

(** The criteria of the classification cascade, on a full frame. *)
Section Criteria.
Context {M : JSMath}.
Variable lm : list Landmark.

Definition indexExtended : bool := isExtended (landmark lm 8) (landmark lm 5).
Definition middleExtended : bool := isExtended (landmark lm 12) (landmark lm 9).
Definition ringExtended : bool := isExtended (landmark lm 16) (landmark lm 13).
Definition pinkyExtended : bool := isExtended (landmark lm 20) (landmark lm 17).

(** Planar distance between the thumb tip and the index tip. *)
Definition pinchDistance : float :=
  getDistance (landmark lm 4) (landmark lm 8).

(** Planar distance from the fingertip at index [tip] to the palm centre. *)
Definition palmDistance (tip : nat) : float :=
  getDistance (landmark lm tip) (landmark lm 9).

Definition pinch_criteria : bool :=
  (pinchDistance <? 0.045)%float && negb middleExtended && negb ringExtended.

Definition three_fingers_criteria : bool :=
  indexExtended && middleExtended && ringExtended && negb pinkyExtended.

Definition two_fingers_criteria : bool :=
  indexExtended && middleExtended && negb ringExtended && negb pinkyExtended.

Definition fist_criteria : bool :=
  (palmDistance 8 <? 0.12)%float && (palmDistance 12 <? 0.12)%float
  && (palmDistance 16 <? 0.12)%float && (palmDistance 20 <? 0.12)%float.

Definition all_extended : bool :=
  indexExtended && middleExtended && ringExtended && pinkyExtended.
End Criteria.

(** An absent landmark set, or one of fewer than 21 points. *)
Definition insufficient (landmarks : option (list Landmark)) : Prop :=
  match landmarks with
  | None => True
  | Some l => length l < 21
  end.

(** The property names of a record, in enumeration order. *)
Definition keys (o : JSRecord) : list GestureType := map fst o.

(** A mounted canvas with a 2d context, a frame without a hand and a frame
    with one hand. *)
Definition ready : Canvas := mkCanvas true true.
Definition no_hand : Results := mkResults true (Some []).
Definition one_hand (landmarks : list Landmark) : Results :=
  mkResults true (Some [landmarks]).

(** Whether the callback gets as far as looking for a hand. *)
Definition drawn (canvas : Canvas) (results : Results) : Prop :=
  canvas.(canvasRef_current) = true /\ results.(image) = true
  /\ canvas.(canvasCtx) = true.

(** [results.multiHandLandmarks && results.multiHandLandmarks.length > 0]
    is falsy. *)
Definition hand_absent (results : Results) : Prop :=
  results.(multiHandLandmarks) = None \/ results.(multiHandLandmarks) = Some [].

(** The frame without a hand as the specification words it, to be compared
    with [processResults]: the stabiliser is fed the raw label NONE, which
    is appended to the buffer and takes part in the vote. *)
Definition no_hand_frame_as_specified (gestureBuffer : list GestureType)
  : list GestureType * exn GestureType :=
  let gestureBuffer' := buffer_update gestureBuffer NONE in
  (gestureBuffer', stableGesture gestureBuffer').

(** The record [acc] tallies the buffer [buf]: it has one property per label
    of [buf], holding the number of its occurrences, and the properties come
    in the order of the labels' first occurrences. *)
Definition tallies (acc : JSRecord) (buf : list GestureType) : Prop :=
  NoDup (keys acc)
  /\ (forall k, obj_get acc k =
                if (0 <? occurrences k buf)%Z then Some (occurrences k buf)
                else None)
  /\ (forall l1 k1 l2 k2, keys acc = l1 ++ k1 :: l2 -> In k2 l2 ->
                          first_index k1 buf < first_index k2 buf).

(** ** App.tsx *)

Inductive HolographicColor : Type := blue | green | red | purple | white.

(** The ['image' | 'model'] of [AppState.assetType]. *)
Inductive AssetType : Type := asset_image | asset_model.

(** [interface AppState] of types.ts; [None] stands for [null]. *)
Record AppState : Type := mkAppState {
  gesture : GestureType;
  isControlsVisible : bool;
  isHolographic : bool;
  holographicColor : HolographicColor;
  opacity : float;
  addDepth : bool;
  assetUrl : option String.string;
  assetType : option AssetType
}.

(** The state [useState] starts from, and the initial [handPosRef.current]. *)
Definition initialAppState : AppState :=
  mkAppState NONE true true blue 0.6 false None None.
Definition initialHandPos : Position := mkPosition 0.5 0.5.

(** [handleGestureUpdate]: the updater given to [setAppState] is applied to
    the state [prev], and [handPosRef.current] is overwritten. *)
Definition handleGestureUpdate (prev : AppState) (handPos : Position)
    (g : GestureType) (position : Position) : AppState * Position :=
  (if GestureType_eq_dec prev.(gesture) g then prev
   else mkAppState g prev.(isControlsVisible) prev.(isHolographic)
          prev.(holographicColor) prev.(opacity) prev.(addDepth)
          prev.(assetUrl) prev.(assetType),
   position).

(** [<HandTracker onGestureDetected={handleGestureUpdate} />]: the calls a
    frame makes reach [handleGestureUpdate] in order; a frame that raises
    has made none. *)
Definition deliver (calls : exn (list Call)) (app : AppState * Position)
  : AppState * Position :=
  match calls with
  | Ok calls =>
      fold_left (fun st c => handleGestureUpdate (fst st) (snd st) (fst c) (snd c))
                calls app
  | TypeError => app
  end.

Section AppFrame.
Context {M : JSMath}.

(** One frame of the application: the tracker's buffer, the App state and
    the hand position after [processResults] ran on [results]. *)
Definition App_frame (canvas : Canvas)
    (st : list GestureType * (AppState * Position)) (results : Results)
  : list GestureType * (AppState * Position) :=
  let '(gestureBuffer', calls) := processResults canvas (fst st) results in
  (gestureBuffer', deliver calls (snd st)).
End AppFrame.

(** ** components/Scene.tsx *)

(** [Math.min] and [Math.max] of two numbers: NaN when either is NaN, and
    -0 counts as less than +0. *)
Definition Math_min (a b : float) : float :=
  if is_nan a || is_nan b then nan
  else if (a <? b)%float then a
  else if (b <? a)%float then b
  else if get_sign a then a else b.

Definition Math_max (a b : float) : float :=
  if is_nan a || is_nan b then nan
  else if (a <? b)%float then b
  else if (b <? a)%float then a
  else if get_sign a then b else a.

(** The PINCH case of the [useFrame] callback of [InteractiveObject]: the
    zoom factor computed from the hand's [y], before and after the clamp.
    (The [lerp] that moves the scale towards it is three.js's.) *)
Definition scaleVal (y : float) : float := (1 + (0.5 - y) * 3)%float.
Definition clampedScale (y : float) : float :=
  Math_max 0.4 (Math_min 5 (scaleVal y)).

(** ** Further notions *)

(** The landmarks [detectGesture] indexes. *)
Definition read_indices : list nat := [4; 8; 12; 16; 20; 5; 9; 13; 17].

(** Two landmarks at the same place of the image plane. *)
Definition same_xy (a b : Landmark) : Prop :=
  a.(x) = b.(x) /\ a.(y) = b.(y).

(** Number of calls of [onGestureDetected] a frame made ([None] when it
    raised). *)
Definition calls_made (out : exn (list Call)) : option nat :=
  match out with
  | Ok calls => Some (length calls)
  | TypeError => None
  end.

(** Every field of the App state but [gesture] is the same. *)
Definition same_settings (a b : AppState) : Prop :=
  a.(isControlsVisible) = b.(isControlsVisible)
  /\ a.(isHolographic) = b.(isHolographic)
  /\ a.(holographicColor) = b.(holographicColor)
  /\ a.(opacity) = b.(opacity)
  /\ a.(addDepth) = b.(addDepth)
  /\ a.(assetUrl) = b.(assetUrl)
  /\ a.(assetType) = b.(assetType).

(** More hands for the concrete frames: index and middle tips 0.05 above
    the palm centre; the open hand with its thumb tip at (0.25, 0.75); the
    open hand with every [z] set to 1 and a 22nd landmark. *)
Definition small_two_fingers : list Landmark :=
  frame centre centre raised raised centre centre.
Definition open_hand_thumb_out : list Landmark :=
  frame centre corner far_raised far_raised far_raised far_raised.
Definition deep_open_hand : list Landmark :=
  map (fun p => mkLandmark p.(x) p.(y) 1) open_hand ++ [corner].

(** ** The classifier *)

Lemma at_index_in_range (A : Type) (l : list A) (i : nat) (d : A) :
  i < length l -> at_index l i = Ok (nth i l d).
Proof.
  intros Hi. unfold at_index.
  rewrite (nth_error_nth' l d Hi). reflexivity.
Qed.

Lemma at_index_first (A : Type) (l : list A) :
  at_index l 0 =
    match hd_error l with
    | Some a => Ok a
    | None => TypeError
    end.
Proof. destruct l; reflexivity. Qed.

Section ClassifierFacts.
Context {M : JSMath}.

(** On a full frame every index of [detectGesture] is in range, and the
    classification is the cascade of tests on the landmarks. *)
Lemma detectGesture_full (lm : list Landmark) :
  21 <= length lm ->
  detectGesture (Some lm) =
    let indexOpen := isExtended (landmark lm 8) (landmark lm 5) in
    let middleOpen := isExtended (landmark lm 12) (landmark lm 9) in
    let ringOpen := isExtended (landmark lm 16) (landmark lm 13) in
    let pinkyOpen := isExtended (landmark lm 20) (landmark lm 17) in
    if (getDistance (landmark lm 4) (landmark lm 8) <? 0.045)%float
       && negb middleOpen && negb ringOpen then Ok PINCH
    else if indexOpen && middleOpen && ringOpen && negb pinkyOpen
    then Ok THREE_FINGERS
    else if indexOpen && middleOpen && negb ringOpen && negb pinkyOpen
    then Ok TWO_FINGERS
    else if forallb (fun tip => (getDistance tip (landmark lm 9) <? 0.12)%float)
              [landmark lm 8; landmark lm 12; landmark lm 16; landmark lm 20]
    then Ok PUNCH
    else if indexOpen && middleOpen && ringOpen && pinkyOpen then Ok OPEN
    else Ok NONE.
Proof.
  intros Hlen. unfold detectGesture.
  assert (Hguard : (length lm <? 21)%nat = false) by (apply Nat.ltb_ge; lia).
  rewrite Hguard.
  repeat (rewrite (@at_index_in_range _ lm _ origin) by lia; cbn [bind]).
  fold (landmark lm 4) (landmark lm 8) (landmark lm 12) (landmark lm 16)
       (landmark lm 20) (landmark lm 5) (landmark lm 9) (landmark lm 13)
       (landmark lm 17).
  cbv zeta.
  destruct (_ && negb (isExtended (landmark lm 12) _) && _); [reflexivity|].
  destruct (isExtended (landmark lm 8) (landmark lm 5)),
           (isExtended (landmark lm 12) (landmark lm 9)),
           (isExtended (landmark lm 16) (landmark lm 13)),
           (isExtended (landmark lm 20) (landmark lm 17));
    cbn [andb negb filter length Nat.leb];
    try reflexivity;
    destruct (forallb _ _); reflexivity.
Qed.
End ClassifierFacts.

Section ClassifierOrder.
Context {M : JSMath}.

(** The cascade in terms of the named criteria. *)
Lemma detectGesture_cascade (lm : list Landmark) :
  21 <= length lm ->
  detectGesture (Some lm) =
    if pinch_criteria lm then Ok PINCH
    else if three_fingers_criteria lm then Ok THREE_FINGERS
    else if two_fingers_criteria lm then Ok TWO_FINGERS
    else if fist_criteria lm then Ok PUNCH
    else if all_extended lm then Ok OPEN
    else Ok NONE.
Proof.
  intros Hlen. rewrite (detectGesture_full lm Hlen). cbv zeta.
  unfold pinch_criteria, three_fingers_criteria, two_fingers_criteria,
    fist_criteria, all_extended, pinchDistance, palmDistance,
    indexExtended, middleExtended, ringExtended, pinkyExtended.
  cbn [forallb]. rewrite andb_true_r, !andb_assoc. reflexivity.
Qed.

(** C6. On a frame of at least 21 landmarks whose thumb tip and index tip
    are less than 0.045 apart in the plane and whose middle and ring
    fingers are not extended, [detectGesture] returns PINCH: whatever the
    pinky does and whether or not the fist test would hold as well. *)
Theorem pinch_is_decided_first (lm : list Landmark) :
  21 <= length lm ->
  (pinchDistance lm <? 0.045)%float = true ->
  middleExtended lm = false ->
  ringExtended lm = false ->
  detectGesture (Some lm) = Ok PINCH.
Proof.
  intros Hlen Hd Hm Hr. rewrite (detectGesture_cascade lm Hlen).
  unfold pinch_criteria. rewrite Hd, Hm, Hr. reflexivity.
Qed.

(** C2, amended. On a frame of at least 21 landmarks whose index, middle,
    ring and pinky are each extended and whose four fingertips are not all
    within 0.12 of the palm centre, [detectGesture] returns OPEN. *)
Theorem open_when_extended_and_not_fist (lm : list Landmark) :
  21 <= length lm ->
  indexExtended lm = true ->
  middleExtended lm = true ->
  ringExtended lm = true ->
  pinkyExtended lm = true ->
  fist_criteria lm = false ->
  detectGesture (Some lm) = Ok OPEN.
Proof.
  intros Hlen Hi Hm Hr Hp Hf. rewrite (detectGesture_cascade lm Hlen).
  unfold pinch_criteria, three_fingers_criteria, two_fingers_criteria,
    all_extended.
  rewrite Hi, Hm, Hr, Hp, Hf. cbn [negb andb].
  rewrite andb_false_r. reflexivity.
Qed.

(** C3, amended. On a frame of at least 21 landmarks whose four fingertips
    are all within 0.12 of the palm centre and on which none of the PINCH,
    THREE_FINGERS and TWO_FINGERS criteria holds, [detectGesture] returns
    PUNCH, also when all four fingers are extended. *)
Theorem fist_after_pinch_and_finger_counts (lm : list Landmark) :
  21 <= length lm ->
  fist_criteria lm = true ->
  pinch_criteria lm = false ->
  three_fingers_criteria lm = false ->
  two_fingers_criteria lm = false ->
  detectGesture (Some lm) = Ok PUNCH.
Proof.
  intros Hlen Hf Hp H3 H2. rewrite (detectGesture_cascade lm Hlen).
  rewrite Hp, H3, H2, Hf. reflexivity.
Qed.

(** [detectGesture] raises on no input. *)
Lemma detectGesture_total (landmarks : option (list Landmark)) :
  exists g, detectGesture landmarks = Ok g.
Proof.
  destruct landmarks as [lm|]; [|exists NONE; reflexivity].
  destruct (Nat.lt_ge_cases (length lm) 21) as [Hshort|Hfull].
  - exists NONE. unfold detectGesture.
    assert (Hguard : (length lm <? 21)%nat = true) by (apply Nat.ltb_lt; lia).
    rewrite Hguard. reflexivity.
  - rewrite (detectGesture_cascade lm Hfull).
    repeat match goal with |- context [if ?b then _ else _] => destruct b end;
      eexists; reflexivity.
Qed.

(** C7. For an absent landmark set and for one of fewer than 21 points
    [detectGesture] returns NONE, and on no input at all does it raise. *)
Theorem insufficient_landmarks_give_NONE (landmarks : option (list Landmark)) :
  (insufficient landmarks -> detectGesture landmarks = Ok NONE)
  /\ detectGesture landmarks <> TypeError.
Proof.
  split.
  - destruct landmarks as [lm|]; cbn [insufficient]; [|reflexivity].
    intros Hshort. unfold detectGesture.
    assert (Hguard : (length lm <? 21)%nat = true) by (apply Nat.ltb_lt; lia).
    rewrite Hguard. reflexivity.
  - destruct (detectGesture_total landmarks) as [g ->]. discriminate.
Qed.
End ClassifierOrder.

(** ** The frequency record *)

Lemma occurrences_nonneg (g : GestureType) (buf : list GestureType) :
  (0 <= occurrences g buf)%Z.
Proof.
  induction buf as [|h rest IH]; cbn [occurrences]; [lia|].
  destruct (GestureType_eq_dec h g); lia.
Qed.

Lemma occurrences_app (g : GestureType) (b1 b2 : list GestureType) :
  occurrences g (b1 ++ b2) = (occurrences g b1 + occurrences g b2)%Z.
Proof.
  induction b1 as [|h rest IH]; cbn [occurrences app]; [reflexivity|].
  rewrite IH. lia.
Qed.

Lemma occurrences_pos_iff (g : GestureType) (buf : list GestureType) :
  (0 < occurrences g buf)%Z <-> In g buf.
Proof.
  induction buf as [|h rest IH]; cbn [occurrences In]; [lia|].
  pose proof (occurrences_nonneg g rest).
  destruct (GestureType_eq_dec h g) as [->|Hne]; split; intros H0.
  - now left.
  - lia.
  - right. apply IH. lia.
  - destruct H0 as [Heq|Hin]; [contradiction|]. apply IH in Hin. lia.
Qed.

Lemma first_index_app_in (g : GestureType) (b1 b2 : list GestureType) :
  In g b1 -> first_index g (b1 ++ b2) = first_index g b1.
Proof.
  induction b1 as [|h rest IH]; cbn [In first_index app]; [tauto|].
  intros [Heq|Hin]; destruct (GestureType_eq_dec h g); auto; contradiction.
Qed.

Lemma first_index_app_new (g : GestureType) (b1 b2 : list GestureType) :
  ~ In g b1 -> first_index g (b1 ++ g :: b2) = length b1.
Proof.
  induction b1 as [|h rest IH]; cbn [In first_index app length]; intros Hnot.
  - destruct (GestureType_eq_dec g g); congruence.
  - destruct (GestureType_eq_dec h g) as [->|Hne]; [tauto|].
    rewrite IH; tauto.
Qed.

Lemma first_index_in_range (g : GestureType) (buf : list GestureType) :
  In g buf -> first_index g buf < length buf.
Proof.
  induction buf as [|h rest IH]; cbn [In first_index length]; [tauto|].
  intros Hin. destruct (GestureType_eq_dec h g) as [->|Hne]; [lia|].
  destruct Hin as [Heq|Hin]; [contradiction|]. apply IH in Hin. lia.
Qed.

Lemma obj_get_set (acc : JSRecord) (k k' : GestureType) (v : Z) :
  obj_get (obj_set acc k v) k' =
    if GestureType_eq_dec k k' then Some v else obj_get acc k'.
Proof.
  induction acc as [|[k0 v0] rest IH]; cbn [obj_get obj_set].
  - destruct (GestureType_eq_dec k k'); reflexivity.
  - destruct (GestureType_eq_dec k0 k) as [->|Hne]; cbn [obj_get].
    + destruct (GestureType_eq_dec k k'); reflexivity.
    + rewrite IH.
      destruct (GestureType_eq_dec k0 k') as [->|Hne'];
        destruct (GestureType_eq_dec k k'); congruence.
Qed.

Lemma obj_get_keys (acc : JSRecord) (k : GestureType) :
  obj_get acc k <> None <-> In k (keys acc).
Proof.
  induction acc as [|[k0 v0] rest IH]; cbn [obj_get keys map In fst].
  - tauto.
  - fold (keys rest). destruct (GestureType_eq_dec k0 k) as [->|Hne].
    + split; [now left | discriminate].
    + rewrite IH. tauto.
Qed.

Lemma keys_obj_set (acc : JSRecord) (k : GestureType) (v : Z) :
  keys (obj_set acc k v) =
    match obj_get acc k with
    | Some _ => keys acc
    | None => keys acc ++ [k]
    end.
Proof.
  induction acc as [|[k0 v0] rest IH]; cbn [obj_get obj_set keys map fst app].
  - reflexivity.
  - fold (keys rest). destruct (GestureType_eq_dec k0 k) as [->|Hne].
    + reflexivity.
    + cbn [map fst]. fold (keys (obj_set rest k v)). rewrite IH.
      destruct (obj_get rest k); reflexivity.
Qed.

Lemma obj_get_In (acc : JSRecord) (k : GestureType) (v : Z) :
  NoDup (keys acc) -> In (k, v) acc -> obj_get acc k = Some v.
Proof.
  induction acc as [|[k0 v0] rest IH]; cbn [obj_get keys map In fst]; [tauto|].
  fold (keys rest). intros Hnd [Heq|Hin].
  - inversion Heq; subst. destruct (GestureType_eq_dec k k); congruence.
  - inversion Hnd as [|? ? Hnotin Hnd']; subst.
    destruct (GestureType_eq_dec k0 k) as [->|Hne].
    + exfalso. apply Hnotin. unfold keys. apply in_map_iff.
      exists (k, v). auto.
    + auto.
Qed.

Lemma tallies_member (acc : JSRecord) (buf : list GestureType) (k : GestureType) :
  tallies acc buf -> (In k (keys acc) <-> In k buf).
Proof.
  intros (_ & Hget & _). rewrite <- obj_get_keys, <- occurrences_pos_iff.
  rewrite (Hget k). destruct (Z.ltb_spec 0 (occurrences k buf)); split;
    intros H0; try lia; try discriminate; congruence.
Qed.

(** One iteration of the [reduce]. *)
Lemma tallies_step (acc : JSRecord) (buf : list GestureType) (g : GestureType) :
  tallies acc buf ->
  tallies (obj_set acc g (or_zero (obj_get acc g) + 1)%Z) (buf ++ [g]).
Proof.
  intros Ht. pose proof (fun k => tallies_member k Ht) as Hmem.
  pose proof Ht as (Hnd & Hget & Hord).
  assert (Hold : forall k, In k (keys acc) ->
                 first_index k (buf ++ [g]) = first_index k buf).
  { intros k Hk. apply first_index_app_in, Hmem, Hk. }
  split; [|split].
  - rewrite keys_obj_set. destruct (obj_get acc g) eqn:Hg; [exact Hnd|].
    apply NoDup_app; [exact Hnd | repeat constructor; intros [] |].
    intros a Ha [<-|[]]. apply obj_get_keys in Ha. congruence.
  - intros k. rewrite obj_get_set, occurrences_app. cbn [occurrences].
    pose proof (occurrences_nonneg k buf) as Hk.
    destruct (GestureType_eq_dec g k) as [->|Hne].
    + rewrite (Hget k). unfold or_zero.
      destruct (Z.ltb_spec 0 (occurrences k buf)).
      * destruct (Z.eqb_spec (occurrences k buf) 0); [lia|].
        destruct (Z.ltb_spec 0 (occurrences k buf + (1 + 0))); [|lia].
        f_equal; lia.
      * destruct (Z.ltb_spec 0 (occurrences k buf + (1 + 0))); [|lia].
        f_equal; lia.
    + rewrite (Hget k). repeat rewrite Z.add_0_r. reflexivity.
  - intros l1 k1 l2 k2. rewrite keys_obj_set.
    destruct (obj_get acc g) eqn:Hg.
    + intros Hsplit Hin.
      rewrite !Hold by (rewrite Hsplit, in_app_iff; cbn [In]; auto).
      eapply Hord; eauto.
    + assert (Hnew : ~ In g buf).
      { rewrite <- Hmem, <- obj_get_keys. intros Hc. apply Hc, Hg. }
      destruct (exists_last (l:=k1 :: l2)) as (front & lastk & Hfront);
        [discriminate|].
      intros Hsplit Hin. rewrite Hfront, app_assoc in Hsplit.
      apply app_inj_tail in Hsplit. destruct Hsplit as [Hkeys <-].
      destruct front as [|f front'].
      * cbn [app] in Hfront. inversion Hfront; subst. destruct Hin.
      * cbn [app] in Hfront. inversion Hfront; subst f l2.
        assert (Hk1 : In k1 (keys acc))
          by (rewrite Hkeys, in_app_iff; cbn [In]; auto).
        rewrite (Hold k1 Hk1).
        apply in_app_iff in Hin. destruct Hin as [Hin|[<-|[]]].
        -- rewrite (Hold k2)
             by (rewrite Hkeys, in_app_iff; cbn [In app]; auto).
           eapply Hord; eauto.
        -- rewrite (@first_index_app_new g buf [] Hnew).
           apply first_index_in_range, Hmem, Hk1.
Qed.

Lemma tallies_fold (l : list GestureType) (acc : JSRecord) (done : list GestureType) :
  tallies acc done ->
  tallies (fold_left (fun acc curr =>
             obj_set acc curr (or_zero (obj_get acc curr) + 1)%Z) l acc)
          (done ++ l).
Proof.
  revert acc done. induction l as [|g rest IH]; intros acc done Ht.
  - rewrite app_nil_r. exact Ht.
  - cbn [fold_left].
    replace (done ++ g :: rest) with ((done ++ [g]) ++ rest)
      by (rewrite <- app_assoc; reflexivity).
    apply IH, tallies_step, Ht.
Qed.

Lemma mostFrequent_tallies (buf : list GestureType) :
  tallies (mostFrequent buf) buf.
Proof.
  apply (tallies_fold buf (acc:=[]) (done:=[])).
  split; [constructor|split].
  - intros k. reflexivity.
  - intros [|? ?] ? ? ? Hnil; discriminate.
Qed.

(** ** The sort by descending count *)

Section SortHead.
Variable A : Type.
Variable cmp : A -> A -> Z.

Lemma sort_insert_head (a : A) (l : list A) :
  hd_error (sort_insert cmp a l) =
    match hd_error l with
    | None => Some a
    | Some b => if (cmp a b <=? 0)%Z then Some a else Some b
    end.
Proof.
  destruct l as [|b rest]; cbn [sort_insert hd_error]; [reflexivity|].
  destruct (cmp a b <=? 0)%Z; reflexivity.
Qed.
End SortHead.

(** The first entry after the sort is the first entry of greatest count:
    the entries before it have strictly smaller counts, the entries after it
    have counts no greater. *)
Lemma Array_sort_first (es : list (GestureType * Z)) :
  es <> [] ->
  exists l1 e l2,
    es = l1 ++ e :: l2
    /\ hd_error (Array_sort (fun a b => (snd b - snd a)%Z) es) = Some e
    /\ Forall (fun e' => (snd e' < snd e)%Z) l1
    /\ Forall (fun e' => (snd e' <= snd e)%Z) l2.
Proof.
  induction es as [|a rest IH]; intros Hne; [congruence|].
  cbn [Array_sort]. rewrite sort_insert_head.
  destruct rest as [|b rest'].
  - exists [], a, []. cbn. repeat split; constructor.
  - destruct IH as (l1 & e & l2 & Hsplit & Hhd & Hlt & Hle); [discriminate|].
    rewrite Hhd. destruct (Z.leb_spec (snd e - snd a) 0) as [Hc|Hc].
    + exists [], a, (b :: rest'). repeat split; [constructor|].
      rewrite Hsplit. apply Forall_app. split.
      * eapply Forall_impl; [|exact Hlt]. cbn beta. intros; lia.
      * constructor; [lia|].
        eapply Forall_impl; [|exact Hle]. cbn beta. intros; lia.
    + exists (a :: l1), e, l2. rewrite Hsplit. repeat split; trivial.
      constructor; [lia | exact Hlt].
Qed.

(** ** The majority vote *)

Lemma mostFrequent_nonempty (buf : list GestureType) :
  buf <> [] -> mostFrequent buf <> [].
Proof.
  intros Hne Hnil. destruct buf as [|g rest]; [congruence|].
  pose proof (tallies_member g (mostFrequent_tallies (g :: rest))) as Hmem.
  rewrite Hnil in Hmem. cbn in Hmem. tauto.
Qed.

(** The vote never raises on a buffer that is not empty; its result is a
    label of the buffer of greatest count, and among the labels of that
    count the one whose first occurrence is the earliest. *)
Lemma stableGesture_vote (buf : list GestureType) :
  buf <> [] ->
  exists stable,
    stableGesture buf = Ok stable
    /\ In stable buf
    /\ (forall g, (occurrences g buf <= occurrences stable buf)%Z)
    /\ (forall g, In g buf -> occurrences g buf = occurrences stable buf ->
                  first_index stable buf <= first_index g buf).
Proof.
  intros Hne.
  pose proof (mostFrequent_tallies buf) as Ht.
  pose proof (fun k => tallies_member k Ht) as Hmem.
  destruct Ht as (Hnd & Hget & Hord).
  destruct (Array_sort_first (mostFrequent_nonempty Hne))
    as (l1 & [stable c] & l2 & Hsplit & Hhd & Hlt & Hle).
  assert (Hkeys : keys (mostFrequent buf) = keys l1 ++ stable :: keys l2)
    by (unfold keys; rewrite Hsplit, map_app; reflexivity).
  assert (Hentry : forall k v, In (k, v) (mostFrequent buf) ->
                   v = occurrences k buf /\ In k buf).
  { intros k v Hin. pose proof (obj_get_In _ _ _ Hnd Hin) as Hv.
    rewrite (Hget k) in Hv.
    destruct (Z.ltb_spec 0 (occurrences k buf)); [|discriminate].
    split; [congruence | apply occurrences_pos_iff; assumption]. }
  destruct (Hentry stable c) as [Hc Hin];
    [rewrite Hsplit, in_app_iff; cbn [In]; auto|].
  cbn [snd] in Hlt, Hle. subst c.
  assert (Hcount : forall g, In g buf ->
            (In g (keys l1) /\ (occurrences g buf < occurrences stable buf)%Z)
            \/ g = stable
            \/ (In g (keys l2) /\ (occurrences g buf <= occurrences stable buf)%Z)).
  { intros g Hg. apply Hmem in Hg. rewrite Hkeys in Hg.
    apply in_app_iff in Hg. destruct Hg as [Hg|[Hg|Hg]]; auto.
    - left. split; [exact Hg|]. unfold keys in Hg.
      apply in_map_iff in Hg. destruct Hg as ([k v] & Hk & Hg). cbn in Hk. subst k.
      destruct (Hentry g v) as [-> _];
        [rewrite Hsplit, in_app_iff; auto|].
      rewrite Forall_forall in Hlt. apply (Hlt _ Hg).
    - right; right. split; [exact Hg|]. unfold keys in Hg.
      apply in_map_iff in Hg. destruct Hg as ([k v] & Hk & Hg). cbn in Hk. subst k.
      destruct (Hentry g v) as [-> _];
        [rewrite Hsplit, in_app_iff; cbn [In]; auto|].
      rewrite Forall_forall in Hle. apply (Hle _ Hg). }
  exists stable. repeat split.
  - unfold stableGesture, sortedEntries, Object_entries.
    rewrite at_index_first, Hhd. reflexivity.
  - exact Hin.
  - intros g. destruct (in_dec GestureType_eq_dec g buf) as [Hg|Hg].
    + destruct (Hcount g Hg) as [[_ H0]|[->|[_ H0]]]; lia.
    + pose proof (proj2 (occurrences_pos_iff stable buf) Hin).
      destruct (Z.lt_ge_cases 0 (occurrences g buf)) as [Hpos|Hzero]; [|lia].
      apply occurrences_pos_iff in Hpos. contradiction.
  - intros g Hg Heq. destruct (Hcount g Hg) as [[_ H0]|[->|[Hk _]]].
    + lia.
    + lia.
    + apply Nat.lt_le_incl. eapply Hord; eauto.
Qed.

(** ** The buffer *)

Lemma tl_skipn (A : Type) (k : nat) (l : list A) :
  tl (skipn k l) = skipn (S k) l.
Proof.
  revert l. induction k as [|k IH]; intros [|a l]; try reflexivity.
  cbn [skipn]. rewrite IH. reflexivity.
Qed.

Lemma buffer_update_fifo (buf : list GestureType) (g : GestureType) :
  buffer_update buf g =
    if (BUFFER_SIZE <=? length buf)%nat then tl buf ++ [g] else buf ++ [g].
Proof.
  unfold buffer_update, push, shift, BUFFER_SIZE.
  rewrite length_app. cbn [length].
  destruct (Nat.ltb_spec 3 (length buf + 1)), (Nat.leb_spec 3 (length buf));
    try lia; try reflexivity.
  destruct buf; [cbn in *; lia | reflexivity].
Qed.

Lemma buffer_update_nonempty (buf : list GestureType) (g : GestureType) :
  buffer_update buf g <> [].
Proof.
  rewrite buffer_update_fifo.
  destruct (BUFFER_SIZE <=? length buf)%nat; intros Hnil;
    apply app_eq_nil in Hnil; destruct Hnil; discriminate.
Qed.

Lemma buffer_update_lastn (history : list GestureType) (g : GestureType) :
  buffer_update (lastn 3 history) g = lastn 3 (history ++ [g]).
Proof.
  rewrite buffer_update_fifo. unfold lastn, BUFFER_SIZE.
  rewrite length_skipn, length_app. cbn [length].
  destruct (Nat.leb_spec 3 (length history - (length history - 3))) as [Hfull|Hpart].
  - rewrite tl_skipn, skipn_app.
    replace (length history + 1 - 3) with (S (length history - 3)) by lia.
    replace (S (length history - 3) - length history) with 0 by lia.
    reflexivity.
  - replace (length history - 3) with 0 by lia.
    replace (length history + 1 - 3) with 0 by lia.
    reflexivity.
Qed.

Lemma feed_app (buf : list GestureType) (r1 r2 : list GestureType) :
  feed buf (r1 ++ r2) =
    (fst (feed (fst (feed buf r1)) r2),
     snd (feed buf r1) ++ snd (feed (fst (feed buf r1)) r2)).
Proof.
  revert buf. induction r1 as [|g rest IH]; intros buf; cbn [feed app fst snd].
  - destruct (feed buf r2); reflexivity.
  - rewrite IH. destruct (feed (buffer_update buf g) rest). reflexivity.
Qed.

Lemma feed_lastn (history raws : list GestureType) :
  fst (feed (lastn 3 history) raws) = lastn 3 (history ++ raws).
Proof.
  revert history. induction raws as [|g rest IH]; intros history; cbn [feed fst].
  - rewrite app_nil_r. reflexivity.
  - specialize (IH (history ++ [g])).
    rewrite <- buffer_update_lastn, <- app_assoc in IH. cbn [app] in IH.
    destruct (feed (buffer_update (lastn 3 history) g) rest). exact IH.
Qed.

(** ** The stabiliser *)

(** C5. Every update appends the raw label at the end of the buffer, with
    the oldest label evicted when that makes more than three, and the stable
    label it computes is a label of the updated buffer that no label occurs
    more often than; fed to an empty buffer, PUNCH, PUNCH, OPEN end on PUNCH
    and PUNCH, OPEN, OPEN end on OPEN. *)
Theorem update_appends_evicts_and_votes (buf : list GestureType) (g : GestureType) :
  buffer_update buf g =
    (if (3 <=? length buf)%nat then tl buf ++ [g] else buf ++ [g])
  /\ (exists stable,
        stableGesture (buffer_update buf g) = Ok stable
        /\ In stable (buffer_update buf g)
        /\ forall g', (occurrences g' (buffer_update buf g)
                       <= occurrences stable (buffer_update buf g))%Z)
  /\ feed [] [PUNCH; PUNCH; OPEN]
     = ([PUNCH; PUNCH; OPEN], [Ok PUNCH; Ok PUNCH; Ok PUNCH])
  /\ feed [] [PUNCH; OPEN; OPEN]
     = ([PUNCH; OPEN; OPEN], [Ok PUNCH; Ok PUNCH; Ok OPEN]).
Proof.
  split; [apply buffer_update_fifo|].
  split; [|split; reflexivity].
  destruct (stableGesture_vote (buffer_update_nonempty buf g))
    as (stable & Hs & Hin & Hmax & _).
  exists stable. auto.
Qed.

(** C4. When several labels share the greatest count in the updated buffer,
    the stable label is the one among them whose first occurrence in the
    buffer is the earliest; fed to an empty buffer, PUNCH, OPEN, PINCH end on
    PUNCH. *)
Theorem ties_go_to_the_earliest_label (buf : list GestureType) (g : GestureType) :
  (exists stable,
     stableGesture (buffer_update buf g) = Ok stable
     /\ (forall g', (occurrences g' (buffer_update buf g)
                     <= occurrences stable (buffer_update buf g))%Z)
     /\ forall g', In g' (buffer_update buf g) ->
          occurrences g' (buffer_update buf g)
          = occurrences stable (buffer_update buf g) ->
          g' <> stable ->
          first_index stable (buffer_update buf g)
          < first_index g' (buffer_update buf g))
  /\ feed [] [PUNCH; OPEN; PINCH]
     = ([PUNCH; OPEN; PINCH], [Ok PUNCH; Ok PUNCH; Ok PUNCH]).
Proof.
  split; [|reflexivity].
  destruct (stableGesture_vote (buffer_update_nonempty buf g))
    as (stable & Hs & Hin & Hmax & Hfirst).
  exists stable. repeat split; trivial.
  intros g' Hg' Heq Hne. specialize (Hfirst g' Hg' Heq).
  destruct (Nat.eq_dec (first_index stable (buffer_update buf g))
                       (first_index g' (buffer_update buf g))) as [Hsame|]; [|lia].
  exfalso. apply Hne. clear - Hsame Hin Hg'.
  induction (buffer_update buf g) as [|h rest IH]; [destruct Hin|].
  cbn [first_index In] in *.
  destruct (GestureType_eq_dec h stable), (GestureType_eq_dec h g');
    try congruence.
  apply IH; [tauto | tauto | lia].
Qed.

(** C8. After the updates of any history of raw labels from the empty
    buffer, the buffer is exactly the last three labels of the history (all
    of them when there are fewer), in their order, and the stable label of
    the last update is the vote over those labels alone. *)
Theorem buffer_is_the_last_three (older : list GestureType) (g : GestureType) :
  fst (feed [] (older ++ [g])) = lastn 3 (older ++ [g])
  /\ length (fst (feed [] (older ++ [g]))) = Nat.min (length (older ++ [g])) 3
  /\ last (snd (feed [] (older ++ [g]))) TypeError
     = stableGesture (lastn 3 (older ++ [g])).
Proof.
  pose proof (feed_lastn [] (older ++ [g])) as Hall.
  pose proof (feed_lastn [] older) as Hold.
  change (lastn 3 []) with (@nil GestureType) in Hall, Hold.
  cbn [app] in Hall, Hold.
  split; [exact Hall|]. split.
  - rewrite Hall. unfold lastn. rewrite length_skipn. lia.
  - rewrite feed_app. cbn [snd feed]. rewrite last_last.
    rewrite Hold, buffer_update_lastn. reflexivity.
Qed.

(** ** The frame callback *)

Section TrackerFacts.
Context {M : JSMath}.

Lemma processResults_hand (canvas : Canvas) (buf : list GestureType)
    (results : Results) (lm : list Landmark) (others : list (list Landmark)) :
  drawn canvas results ->
  results.(multiHandLandmarks) = Some (lm :: others) ->
  9 < length lm ->
  exists rawGesture stable,
    detectGesture (Some lm) = Ok rawGesture
    /\ stableGesture (buffer_update buf rawGesture) = Ok stable
    /\ processResults canvas buf results =
         (buffer_update buf rawGesture,
          Ok [(stable, mkPosition (landmark lm 9).(x) (landmark lm 9).(y))]).
Proof.
  intros (Hcanvas & Himage & Hctx) Hhand Hlen.
  destruct (detectGesture_total (Some lm)) as [raw Hraw].
  destruct (stableGesture_vote (buffer_update_nonempty buf raw))
    as (stable & Hstable & _).
  exists raw, stable. repeat split; trivial.
  unfold processResults.
  rewrite Hcanvas, Himage, Hctx, Hhand, Hraw. cbn [negb orb].
  rewrite (@at_index_in_range _ lm 9 origin Hlen), Hstable. reflexivity.
Qed.

(** C9. On a frame that is drawn and carries a hand with a palm-centre
    landmark (index 9), [onGestureDetected] is called once, with the stable
    label of the updated buffer and with the [x] and [y] of that frame's
    landmark 9, whatever the buffer held before. *)
Theorem anchor_is_the_palm_centre (canvas : Canvas) (buf : list GestureType)
    (results : Results) (lm : list Landmark) (others : list (list Landmark)) :
  drawn canvas results ->
  results.(multiHandLandmarks) = Some (lm :: others) ->
  9 < length lm ->
  exists stable,
    snd (processResults canvas buf results) =
      Ok [(stable, mkPosition (landmark lm 9).(x) (landmark lm 9).(y))].
Proof.
  intros Hdrawn Hhand Hlen.
  destruct (processResults_hand buf Hdrawn Hhand Hlen)
    as (raw & stable & _ & _ & ->).
  exists stable. reflexivity.
Qed.

(** C10. On a frame that is drawn and carries no hand, [onGestureDetected]
    is called once, with NONE and the position (0.5, 0.5), and the gesture
    buffer is left as it was. *)
Theorem no_hand_emits_NONE_and_keeps_the_buffer (canvas : Canvas)
    (buf : list GestureType) (results : Results) :
  drawn canvas results -> hand_absent results ->
  processResults canvas buf results = (buf, Ok [(NONE, mkPosition 0.5 0.5)]).
Proof.
  intros (Hcanvas & Himage & Hctx) Habsent. unfold processResults.
  rewrite Hcanvas, Himage, Hctx. cbn [negb orb].
  destruct Habsent as [-> | ->]; reflexivity.
Qed.

(** C1, amended. On a frame without a hand the stabiliser is fed nothing:
    the label handed on is NONE on that very frame, whatever the buffer
    holds, and the frame that follows is processed on the buffer as it
    stood before the gap.  Whatever the frame, the buffer is either left as
    it was or updated with the raw label [detectGesture] gives to a hand
    that frame carries: NONE enters the buffer in no other way. *)
Theorem no_hand_frame_is_not_fed_to_the_buffer (canvas : Canvas)
    (buf : list GestureType) (gap next : Results) :
  drawn canvas gap -> hand_absent gap ->
  (exists anchor, snd (processResults canvas buf gap) = Ok [(NONE, anchor)])
  /\ processResults canvas (fst (processResults canvas buf gap)) next
     = processResults canvas buf next
  /\ (fst (processResults canvas buf next) = buf
      \/ exists lm others rawGesture,
           drawn canvas next
           /\ next.(multiHandLandmarks) = Some (lm :: others)
           /\ detectGesture (Some lm) = Ok rawGesture
           /\ fst (processResults canvas buf next) = buffer_update buf rawGesture).
Proof.
  intros (Hcanvas & Himage & Hctx) Habsent.
  assert (Hgap : processResults canvas buf gap
                 = (buf, Ok [(NONE, mkPosition 0.5 0.5)])).
  { unfold processResults. rewrite Hcanvas, Himage, Hctx. cbn [negb orb].
    destruct Habsent as [-> | ->]; reflexivity. }
  rewrite Hgap. cbn [fst snd].
  split; [eexists; reflexivity|]. split; [reflexivity|].
  unfold processResults, drawn.
  destruct (canvasRef_current canvas) eqn:Hc; [|left; reflexivity].
  destruct (image next) eqn:Hi; [|left; reflexivity].
  destruct (canvasCtx canvas) eqn:Hx; [|left; reflexivity].
  cbn [negb orb].
  destruct (multiHandLandmarks next) as [[|lm others]|] eqn:Hhand;
    try (left; reflexivity).
  destruct (detectGesture_total (Some lm)) as [raw Hraw]. rewrite Hraw.
  destruct (at_index lm 9); [|left; reflexivity].
  right. exists lm, others, raw. cbn [fst]. repeat split; auto.
Qed.
End TrackerFacts.

(** ** Concrete frames *)

(** C6, at a frame whose five tips all sit on the palm centre: the thumb and
    index tips coincide, no finger is extended and the fist test holds too. *)
Lemma pinch_is_decided_first_witness :
  fist_criteria (M:=ieee_Math) closed_hand = true
  /\ detectGesture (M:=ieee_Math) (Some closed_hand)
     = Ok PINCH.
Proof.
  split; [reflexivity|].
  apply (@pinch_is_decided_first ieee_Math).
  - cbv; lia.
  - reflexivity.
  - reflexivity.
  - reflexivity.
Defined.

(** C2 as stated fails: with the four fingertips raised 0.05 above the palm
    centre every finger is extended, yet all four tips are within 0.12 of the
    palm centre and the frame is classified PUNCH. *)
Lemma all_extended_yet_PUNCH :
  21 <= length small_open_hand
  /\ indexExtended small_open_hand = true
  /\ middleExtended small_open_hand = true
  /\ ringExtended small_open_hand = true
  /\ pinkyExtended small_open_hand = true
  /\ detectGesture (M:=ieee_Math) (Some small_open_hand)
     = Ok PUNCH.
Proof.
  split; [cbv; lia|]. repeat split; reflexivity.
Qed.

(** C2 amended, at a frame whose four fingertips are raised 0.3 above the
    palm centre. *)
Lemma open_when_extended_and_not_fist_witness :
  detectGesture (M:=ieee_Math)
    (Some open_hand) = Ok OPEN.
Proof.
  apply (@open_when_extended_and_not_fist ieee_Math);
    [cbv; lia | reflexivity ..].
Defined.

(** C3 as stated fails: with index, middle and ring raised 0.05 and the pinky
    on the palm centre, all four tips are within 0.12 of the palm centre and
    the PINCH criteria do not hold, yet the frame is classified
    THREE_FINGERS. *)
Lemma fist_yet_THREE_FINGERS :
  21 <= length small_three_fingers
  /\ (palmDistance (M:=ieee_Math) small_three_fingers 8
      <? 0.12)%float = true
  /\ (palmDistance (M:=ieee_Math) small_three_fingers 12
      <? 0.12)%float = true
  /\ (palmDistance (M:=ieee_Math) small_three_fingers 16
      <? 0.12)%float = true
  /\ (palmDistance (M:=ieee_Math) small_three_fingers 20
      <? 0.12)%float = true
  /\ pinch_criteria (M:=ieee_Math) small_three_fingers = false
  /\ detectGesture (M:=ieee_Math) (Some small_three_fingers)
     = Ok THREE_FINGERS.
Proof.
  split; [cbv; lia|]. repeat split; reflexivity.
Qed.

(** C3 amended, at a frame whose four fingers are all extended and within
    0.12 of the palm centre. *)
Lemma fist_after_pinch_and_finger_counts_witness :
  all_extended small_open_hand = true
  /\ detectGesture (M:=ieee_Math) (Some small_open_hand)
     = Ok PUNCH.
Proof.
  split; [reflexivity|].
  apply (@fist_after_pinch_and_finger_counts ieee_Math);
    [cbv; lia | reflexivity ..].
Defined.

(** C9, at a frame whose hand is gathered at (0.25, 0.75), on a buffer that
    holds two PUNCH. *)
Lemma anchor_is_the_palm_centre_witness :
  exists stable,
    snd (processResults (M:=ieee_Math) ready [PUNCH; PUNCH]
           (one_hand gathered_hand))
    = Ok [(stable, mkPosition 0.25 0.75)].
Proof.
  apply (@anchor_is_the_palm_centre ieee_Math ready [PUNCH; PUNCH]
           (one_hand gathered_hand)
           gathered_hand []).
  - repeat split.
  - reflexivity.
  - cbv; lia.
Defined.

(** C10, on a buffer that holds three PUNCH. *)
Lemma no_hand_emits_NONE_and_keeps_the_buffer_witness :
  processResults (M:=ieee_Math) ready [PUNCH; PUNCH; PUNCH] no_hand
  = ([PUNCH; PUNCH; PUNCH], Ok [(NONE, mkPosition 0.5 0.5)]).
Proof.
  apply (@no_hand_emits_NONE_and_keeps_the_buffer ieee_Math).
  - repeat split.
  - right. reflexivity.
Defined.

(** C1 as stated fails: on a buffer that holds two PUNCH, a frame without a
    hand leaves the buffer alone and hands on NONE, where feeding NONE to the
    stabiliser would make the buffer PUNCH, PUNCH, NONE and the stable label
    PUNCH. *)
Lemma no_hand_frame_bypasses_the_vote :
  processResults (M:=ieee_Math) ready [PUNCH; PUNCH] no_hand
  = ([PUNCH; PUNCH], Ok [(NONE, mkPosition 0.5 0.5)])
  /\ no_hand_frame_as_specified [PUNCH; PUNCH]
     = ([PUNCH; PUNCH; NONE], Ok PUNCH).
Proof. split; reflexivity. Qed.

(** C1 amended, at a gap followed by a frame with the open hand: the gap
    hands on NONE and leaves the buffer to the next frame, which appends
    the raw label of its hand. *)
Lemma no_hand_frame_is_not_fed_to_the_buffer_witness :
  (exists anchor,
     snd (processResults (M:=ieee_Math) ready [PUNCH; PUNCH] no_hand)
     = Ok [(NONE, anchor)])
  /\ processResults (M:=ieee_Math) ready
       (fst (processResults (M:=ieee_Math) ready [PUNCH; PUNCH] no_hand))
       (one_hand open_hand)
     = processResults (M:=ieee_Math) ready [PUNCH; PUNCH]
         (one_hand open_hand)
  /\ (fst (processResults (M:=ieee_Math) ready [PUNCH; PUNCH]
             (one_hand open_hand)) = [PUNCH; PUNCH]
      \/ exists lm others rawGesture,
           drawn ready (one_hand open_hand)
           /\ (one_hand open_hand).(multiHandLandmarks) = Some (lm :: others)
           /\ detectGesture (M:=ieee_Math) (Some lm) = Ok rawGesture
           /\ fst (processResults (M:=ieee_Math) ready [PUNCH; PUNCH]
                     (one_hand open_hand))
              = buffer_update [PUNCH; PUNCH] rawGesture).
Proof.
  apply (@no_hand_frame_is_not_fed_to_the_buffer ieee_Math).
  - repeat split.
  - right. reflexivity.
Defined.

(** ** More on the classifier *)

Section ClassifierMore.
Context {M : JSMath}.

Lemma getDistance_same_xy (a a' b b' : Landmark) :
  same_xy a a' -> same_xy b b' -> getDistance a b = getDistance a' b'.
Proof.
  intros [Hax Hay] [Hbx Hby]. unfold getDistance.
  rewrite Hax, Hay, Hbx, Hby. reflexivity.
Qed.

Lemma isExtended_same_xy (a a' b b' : Landmark) :
  same_xy a a' -> same_xy b b' -> isExtended a b = isExtended a' b'.
Proof.
  intros [_ Hay] [_ Hby]. unfold isExtended. rewrite Hay, Hby. reflexivity.
Qed.

(** X1. On a frame of at least 21 landmarks, [detectGesture] returns
    THREE_FINGERS exactly when index, middle and ring are extended and the
    pinky is not: neither the thumb nor any distance can prevent it. *)
Theorem THREE_FINGERS_exactly (lm : list Landmark) :
  21 <= length lm ->
  (detectGesture (Some lm) = Ok THREE_FINGERS
   <-> indexExtended lm = true /\ middleExtended lm = true
       /\ ringExtended lm = true /\ pinkyExtended lm = false).
Proof.
  intros Hlen. rewrite (detectGesture_cascade lm Hlen).
  unfold pinch_criteria, three_fingers_criteria, two_fingers_criteria,
    all_extended.
  destruct (indexExtended lm), (middleExtended lm), (ringExtended lm),
    (pinkyExtended lm), (pinchDistance lm <? 0.045)%float, (fist_criteria lm);
    cbn [andb negb]; split; try discriminate; try tauto;
    intros (? & ? & ? & ?); discriminate.
Qed.

(** X2. On a frame of at least 21 landmarks, [detectGesture] returns
    TWO_FINGERS exactly when index and middle are extended and ring and
    pinky are not. *)
Theorem TWO_FINGERS_exactly (lm : list Landmark) :
  21 <= length lm ->
  (detectGesture (Some lm) = Ok TWO_FINGERS
   <-> indexExtended lm = true /\ middleExtended lm = true
       /\ ringExtended lm = false /\ pinkyExtended lm = false).
Proof.
  intros Hlen. rewrite (detectGesture_cascade lm Hlen).
  unfold pinch_criteria, three_fingers_criteria, two_fingers_criteria,
    all_extended.
  destruct (indexExtended lm), (middleExtended lm), (ringExtended lm),
    (pinkyExtended lm), (pinchDistance lm <? 0.045)%float, (fist_criteria lm);
    cbn [andb negb]; split; try discriminate; try tauto;
    intros (? & ? & ? & ?); discriminate.
Qed.

(** X3. On a frame of at least 21 landmarks, [detectGesture] returns OPEN
    exactly when all four fingers are extended and the four fingertips are
    not all within 0.12 of the palm centre. *)
Theorem OPEN_exactly (lm : list Landmark) :
  21 <= length lm ->
  (detectGesture (Some lm) = Ok OPEN
   <-> all_extended lm = true /\ fist_criteria lm = false).
Proof.
  intros Hlen. rewrite (detectGesture_cascade lm Hlen).
  unfold pinch_criteria, three_fingers_criteria, two_fingers_criteria,
    all_extended.
  destruct (indexExtended lm), (middleExtended lm), (ringExtended lm),
    (pinkyExtended lm), (pinchDistance lm <? 0.045)%float, (fist_criteria lm);
    cbn [andb negb]; split; try discriminate; try tauto;
    intros (? & ?); discriminate.
Qed.

(** X4. [detectGesture] reads nothing but the [x] and [y] of the landmarks
    4, 5, 8, 9, 12, 13, 16, 17 and 20: two frames of at least 21 landmarks
    that agree there are classified alike, whatever their [z], their other
    landmarks and their lengths. *)
Theorem detectGesture_reads_nine_points (l1 l2 : list Landmark) :
  21 <= length l1 -> 21 <= length l2 ->
  (forall i, In i read_indices -> same_xy (landmark l1 i) (landmark l2 i)) ->
  detectGesture (Some l1) = detectGesture (Some l2).
Proof.
  intros H1 H2 Hsame.
  assert (Hat : forall i, In i read_indices -> same_xy (landmark l1 i) (landmark l2 i))
    by exact Hsame.
  rewrite (detectGesture_full l1 H1), (detectGesture_full l2 H2). cbv zeta.
  cbn [forallb].
  rewrite (getDistance_same_xy (a:=landmark l1 4) (b:=landmark l1 8)
             (Hat 4 ltac:(cbn; tauto)) (Hat 8 ltac:(cbn; tauto))).
  rewrite (getDistance_same_xy (a:=landmark l1 8) (b:=landmark l1 9)
             (Hat 8 ltac:(cbn; tauto)) (Hat 9 ltac:(cbn; tauto))).
  rewrite (getDistance_same_xy (a:=landmark l1 12) (b:=landmark l1 9)
             (Hat 12 ltac:(cbn; tauto)) (Hat 9 ltac:(cbn; tauto))).
  rewrite (getDistance_same_xy (a:=landmark l1 16) (b:=landmark l1 9)
             (Hat 16 ltac:(cbn; tauto)) (Hat 9 ltac:(cbn; tauto))).
  rewrite (getDistance_same_xy (a:=landmark l1 20) (b:=landmark l1 9)
             (Hat 20 ltac:(cbn; tauto)) (Hat 9 ltac:(cbn; tauto))).
  rewrite (isExtended_same_xy (a:=landmark l1 8) (b:=landmark l1 5)
             (Hat 8 ltac:(cbn; tauto)) (Hat 5 ltac:(cbn; tauto))).
  rewrite (isExtended_same_xy (a:=landmark l1 12) (b:=landmark l1 9)
             (Hat 12 ltac:(cbn; tauto)) (Hat 9 ltac:(cbn; tauto))).
  rewrite (isExtended_same_xy (a:=landmark l1 16) (b:=landmark l1 13)
             (Hat 16 ltac:(cbn; tauto)) (Hat 13 ltac:(cbn; tauto))).
  rewrite (isExtended_same_xy (a:=landmark l1 20) (b:=landmark l1 17)
             (Hat 20 ltac:(cbn; tauto)) (Hat 17 ltac:(cbn; tauto))).
  reflexivity.
Qed.

(** X5. The thumb matters to PINCH alone: two frames of at least 21
    landmarks that agree on the eight landmarks other than the thumb tip
    and are both classified otherwise than PINCH are classified alike. *)
Theorem thumb_only_decides_PINCH (l1 l2 : list Landmark) :
  21 <= length l1 -> 21 <= length l2 ->
  (forall i, In i read_indices -> i <> 4 ->
             same_xy (landmark l1 i) (landmark l2 i)) ->
  detectGesture (Some l1) <> Ok PINCH ->
  detectGesture (Some l2) <> Ok PINCH ->
  detectGesture (Some l1) = detectGesture (Some l2).
Proof.
  intros H1 H2 Hsame.
  assert (Hat : forall i, In i read_indices -> i <> 4 ->
                same_xy (landmark l1 i) (landmark l2 i)) by exact Hsame.
  rewrite (detectGesture_full l1 H1), (detectGesture_full l2 H2). cbv zeta.
  cbn [forallb].
  rewrite (getDistance_same_xy (a:=landmark l1 8) (b:=landmark l1 9)
             (Hat 8 ltac:(cbn; tauto) ltac:(lia)) (Hat 9 ltac:(cbn; tauto) ltac:(lia))).
  rewrite (getDistance_same_xy (a:=landmark l1 12) (b:=landmark l1 9)
             (Hat 12 ltac:(cbn; tauto) ltac:(lia)) (Hat 9 ltac:(cbn; tauto) ltac:(lia))).
  rewrite (getDistance_same_xy (a:=landmark l1 16) (b:=landmark l1 9)
             (Hat 16 ltac:(cbn; tauto) ltac:(lia)) (Hat 9 ltac:(cbn; tauto) ltac:(lia))).
  rewrite (getDistance_same_xy (a:=landmark l1 20) (b:=landmark l1 9)
             (Hat 20 ltac:(cbn; tauto) ltac:(lia)) (Hat 9 ltac:(cbn; tauto) ltac:(lia))).
  rewrite (isExtended_same_xy (a:=landmark l1 8) (b:=landmark l1 5)
             (Hat 8 ltac:(cbn; tauto) ltac:(lia)) (Hat 5 ltac:(cbn; tauto) ltac:(lia))).
  rewrite (isExtended_same_xy (a:=landmark l1 12) (b:=landmark l1 9)
             (Hat 12 ltac:(cbn; tauto) ltac:(lia)) (Hat 9 ltac:(cbn; tauto) ltac:(lia))).
  rewrite (isExtended_same_xy (a:=landmark l1 16) (b:=landmark l1 13)
             (Hat 16 ltac:(cbn; tauto) ltac:(lia)) (Hat 13 ltac:(cbn; tauto) ltac:(lia))).
  rewrite (isExtended_same_xy (a:=landmark l1 20) (b:=landmark l1 17)
             (Hat 20 ltac:(cbn; tauto) ltac:(lia)) (Hat 17 ltac:(cbn; tauto) ltac:(lia))).
  destruct (_ && negb (isExtended (landmark l2 12) _) && _);
    [intros Hc; exfalso; apply Hc; reflexivity|].
  destruct (_ && negb (isExtended (landmark l2 12) _) && _);
    [intros _ Hc; exfalso; apply Hc; reflexivity|].
  reflexivity.
Qed.
End ClassifierMore.

(** ** More on the vote *)

Lemma occurrences_two_le_length (a b : GestureType) (buf : list GestureType) :
  a <> b -> (occurrences a buf + occurrences b buf <= Z.of_nat (length buf))%Z.
Proof.
  intros Hne. induction buf as [|h rest IH]; cbn [occurrences length]; [lia|].
  destruct (GestureType_eq_dec h a), (GestureType_eq_dec h b); try congruence; lia.
Qed.

(** X6. A label that fills more than half of a buffer is the stable label of
    that buffer. *)
Theorem strict_majority_wins (buf : list GestureType) (g : GestureType) :
  (Z.of_nat (length buf) < 2 * occurrences g buf)%Z ->
  stableGesture buf = Ok g.
Proof.
  intros Hmaj.
  assert (Hne : buf <> []) by (intros ->; cbn in Hmaj; lia).
  destruct (stableGesture_vote Hne) as (stable & Hs & _ & Hmax & _).
  rewrite Hs. f_equal.
  destruct (GestureType_eq_dec stable g) as [Heq|Hdiff]; [exact Heq|].
  pose proof (occurrences_two_le_length buf Hdiff).
  pose proof (Hmax g). lia.
Qed.

(** X7. The frequency record built from a buffer has, for each label, the
    number of its occurrences in the buffer, and no property at all for a
    label that does not occur. *)
Theorem mostFrequent_counts (buf : list GestureType) (g : GestureType) (n : Z) :
  obj_get (mostFrequent buf) g = Some n
  <-> (n = occurrences g buf /\ In g buf).
Proof.
  destruct (mostFrequent_tallies buf) as (_ & Hget & _).
  rewrite (Hget g), <- occurrences_pos_iff.
  destruct (Z.ltb_spec 0 (occurrences g buf)); split.
  - intros [= <-]. auto.
  - intros [-> _]. reflexivity.
  - discriminate.
  - intros [_ Hpos]. lia.
Qed.

Section SortFacts.
Variable A : Type.
Variable cmp : A -> A -> Z.

Lemma sort_insert_Permutation (a : A) (l : list A) :
  Permutation (sort_insert cmp a l) (a :: l).
Proof.
  induction l as [|b rest IH]; cbn [sort_insert]; [reflexivity|].
  destruct (cmp a b <=? 0)%Z; [reflexivity|].
  rewrite IH. apply perm_swap.
Qed.

Lemma Array_sort_Permutation (l : list A) : Permutation (Array_sort cmp l) l.
Proof.
  induction l as [|a rest IH]; cbn [Array_sort]; [reflexivity|].
  rewrite sort_insert_Permutation, IH. reflexivity.
Qed.
End SortFacts.

Lemma sort_insert_descending (a : GestureType * Z) (l : list (GestureType * Z)) :
  Sorted (fun e1 e2 => (snd e2 <= snd e1)%Z) l ->
  Sorted (fun e1 e2 => (snd e2 <= snd e1)%Z)
         (sort_insert (fun a b => (snd b - snd a)%Z) a l).
Proof.
  induction l as [|b rest IH]; intros Hs; cbn [sort_insert].
  - repeat constructor.
  - destruct (Z.leb_spec (snd b - snd a) 0) as [Hle|Hgt].
    + constructor; [exact Hs | constructor; lia].
    + inversion Hs as [|? ? Hrest Hhd]; subst.
      constructor; [apply IH, Hrest|].
      destruct rest as [|c rest']; cbn [sort_insert].
      * constructor. lia.
      * destruct (snd c - snd a <=? 0)%Z; constructor; [lia|].
        inversion Hhd; subst. assumption.
Qed.

(** X8. The sorted entries are the entries of the frequency record, each
    once, in an order of non-increasing count. *)
Theorem sortedEntries_sorted (buf : list GestureType) :
  Permutation (sortedEntries buf) (Object_entries (mostFrequent buf))
  /\ Sorted (fun e1 e2 => (snd e2 <= snd e1)%Z) (sortedEntries buf).
Proof.
  unfold sortedEntries. split; [apply Array_sort_Permutation|].
  induction (Object_entries (mostFrequent buf)) as [|a rest IH];
    cbn [Array_sort]; [constructor|].
  apply sort_insert_descending, IH.
Qed.

(** The vote over a window of three. *)
Lemma stableGesture_window (a b c : GestureType) :
  stableGesture [a; b; c] = Ok (if GestureType_eq_dec b c then b else a).
Proof. destruct a, b, c; reflexivity. Qed.

Lemma feed_last_output (older : list GestureType) (g : GestureType) :
  last (snd (feed [] (older ++ [g]))) TypeError
  = stableGesture (lastn 3 (older ++ [g])).
Proof.
  pose proof (feed_lastn [] older) as Hold.
  change (lastn 3 []) with (@nil GestureType) in Hold. cbn [app] in Hold.
  rewrite feed_app. cbn [snd feed]. rewrite last_last.
  rewrite Hold, buffer_update_lastn. reflexivity.
Qed.

(** X9. From the third frame with a hand on, the stable label is the label
    of the two latest frames when they agree, and otherwise the label of the
    frame before them: the latest raw label alone never shows. *)
Theorem stable_label_of_a_full_window (older : list GestureType)
    (a b c : GestureType) :
  last (snd (feed [] (older ++ [a; b; c]))) TypeError
  = Ok (if GestureType_eq_dec b c then b else a).
Proof.
  replace (older ++ [a; b; c]) with ((older ++ [a; b]) ++ [c])
    by (rewrite <- app_assoc; reflexivity).
  rewrite feed_last_output, <- app_assoc. cbn [app].
  unfold lastn. rewrite length_app. cbn [length].
  replace (length older + 3 - 3) with (length older + 0) by lia.
  rewrite skipn_app, Nat.add_0_r, skipn_all.
  replace (length older - length older) with 0 by lia.
  cbn [skipn app]. apply stableGesture_window.
Qed.

(** X10. On the first two frames with a hand the stable label is the raw
    label of the first one. *)
Theorem first_two_frames_show_the_first_label (a b : GestureType) :
  feed [] [a; b] = ([a; b], [Ok a; Ok a]).
Proof. destruct a, b; reflexivity. Qed.

(** ** More on the frame callback *)

Lemma buffer_update_length (buf : list GestureType) (g : GestureType) :
  length buf <= 3 -> length (buffer_update buf g) <= 3.
Proof.
  intros Hlen. rewrite buffer_update_fifo. unfold BUFFER_SIZE.
  destruct (Nat.leb_spec 3 (length buf)); rewrite length_app; cbn [length].
  - destruct buf; cbn [tl length] in *; lia.
  - lia.
Qed.

(** Two updates with the same label make it the stable one. *)
Lemma two_updates_settle (buf : list GestureType) (g : GestureType) :
  length buf <= 3 ->
  stableGesture (buffer_update (buffer_update buf g) g) = Ok g.
Proof.
  intros Hlen.
  destruct buf as [|a [|b [|c [|d rest]]]]; cbn [length] in Hlen; try lia;
    cbv [buffer_update push shift BUFFER_SIZE app length Nat.ltb Nat.leb tl].
  - destruct g; reflexivity.
  - rewrite stableGesture_window. destruct (GestureType_eq_dec g g); congruence.
  - rewrite stableGesture_window. destruct (GestureType_eq_dec g g); congruence.
  - rewrite stableGesture_window. destruct (GestureType_eq_dec g g); congruence.
Qed.

Section TrackerMore.
Context {M : JSMath}.

Lemma drawn_dec (canvas : Canvas) (results : Results) :
  {drawn canvas results} + {~ drawn canvas results}.
Proof.
  unfold drawn.
  destruct (canvasRef_current canvas), (image results), (canvasCtx canvas);
    try (left; tauto); right; intros (? & ? & ?); discriminate.
Qed.

(** The four ways a frame goes. *)
Lemma processResults_cases (canvas : Canvas) (buf : list GestureType)
    (results : Results) :
  (~ drawn canvas results /\ processResults canvas buf results = (buf, Ok []))
  \/ (drawn canvas results /\ hand_absent results
      /\ processResults canvas buf results
         = (buf, Ok [(NONE, mkPosition 0.5 0.5)]))
  \/ (drawn canvas results
      /\ (exists lm others, results.(multiHandLandmarks) = Some (lm :: others)
                            /\ length lm <= 9)
      /\ processResults canvas buf results = (buf, TypeError))
  \/ (drawn canvas results
      /\ exists lm others rawGesture stable,
           results.(multiHandLandmarks) = Some (lm :: others)
           /\ 9 < length lm
           /\ detectGesture (Some lm) = Ok rawGesture
           /\ stableGesture (buffer_update buf rawGesture) = Ok stable
           /\ processResults canvas buf results
              = (buffer_update buf rawGesture,
                 Ok [(stable, mkPosition (landmark lm 9).(x) (landmark lm 9).(y))])).
Proof.
  destruct (drawn_dec canvas results) as [Hd|Hd].
  - right. destruct (multiHandLandmarks results) as [[|lm others]|] eqn:Hhand.
    + left. pose proof Hd as (Hc & Hi & Hx). repeat split; trivial.
      * right. exact Hhand.
      * unfold processResults. rewrite Hc, Hi, Hx, Hhand. reflexivity.
    + right. destruct (Nat.le_gt_cases (length lm) 9) as [Hshort|Hlong].
      * left. pose proof Hd as (Hc & Hi & Hx). repeat split; trivial.
        -- exists lm, others. auto.
        -- unfold processResults. rewrite Hc, Hi, Hx, Hhand. cbn [negb orb].
           destruct (detectGesture_total (Some lm)) as [raw ->].
           unfold at_index.
           rewrite (proj2 (nth_error_None lm 9)) by lia. reflexivity.
      * right. split; [exact Hd|].
        destruct (processResults_hand buf Hd Hhand Hlong)
          as (raw & stable & Hraw & Hstable & Hp).
        exists lm, others, raw, stable. auto.
    + left. pose proof Hd as (Hc & Hi & Hx). repeat split; trivial.
      * left. exact Hhand.
      * unfold processResults. rewrite Hc, Hi, Hx, Hhand. reflexivity.
  - left. split; [exact Hd|]. unfold processResults, drawn in *.
    destruct (canvasRef_current canvas), (image results), (canvasCtx canvas);
      try reflexivity; tauto.
Qed.

(** X11. [processResults] raises exactly on a drawn frame whose first hand
    has fewer than ten landmarks, at the read of [landmarks[9].x]; the
    gesture buffer is then as it was and [onGestureDetected] was not
    called. *)
Theorem raises_exactly_without_landmark_9 (canvas : Canvas)
    (buf : list GestureType) (results : Results) :
  (snd (processResults canvas buf results) = TypeError
   <-> drawn canvas results
       /\ exists lm others, results.(multiHandLandmarks) = Some (lm :: others)
                            /\ length lm <= 9)
  /\ (snd (processResults canvas buf results) = TypeError ->
      fst (processResults canvas buf results) = buf).
Proof.
  destruct (processResults_cases canvas buf results)
    as [(Hd & ->) | [(Hd & Ha & ->) | [(Hd & Hshort & ->) |
        (Hd & lm & others & raw & stable & Hhand & Hlong & _ & _ & ->)]]];
    cbn [fst snd]; (split; [split|]); try discriminate; try tauto.
  - intros (_ & lm & others & Hhand & _).
    destruct Ha as [Ha|Ha]; congruence.
  - intros (_ & lm' & others' & Hhand' & Hshort').
    rewrite Hhand in Hhand'. inversion Hhand'; subst. lia.
Qed.

(** X12. [processResults] returns without calling [onGestureDetected]
    exactly when the canvas is not mounted, [results.image] is missing or no
    2d context was obtained; the gesture buffer is then as it was.  On
    every other frame that does not raise it calls it exactly once. *)
Theorem calls_once_unless_not_drawn (canvas : Canvas)
    (buf : list GestureType) (results : Results) :
  (calls_made (snd (processResults canvas buf results)) = Some 0
   <-> ~ drawn canvas results)
  /\ (~ drawn canvas results -> fst (processResults canvas buf results) = buf)
  /\ (drawn canvas results ->
      snd (processResults canvas buf results) <> TypeError ->
      calls_made (snd (processResults canvas buf results)) = Some 1).
Proof.
  destruct (processResults_cases canvas buf results)
    as [(Hd & ->) | [(Hd & Ha & ->) | [(Hd & Hshort & ->) |
        (Hd & lm & others & raw & stable & Hhand & Hlong & _ & _ & ->)]]];
    cbn [fst snd calls_made length]; repeat split;
    try discriminate; try tauto; try congruence.
Qed.

(** X13. A gesture buffer of at most three labels has at most three labels
    after any frame. *)
Theorem buffer_never_exceeds_three (canvas : Canvas)
    (buf : list GestureType) (results : Results) :
  length buf <= 3 ->
  length (fst (processResults canvas buf results)) <= 3.
Proof.
  intros Hlen.
  destruct (processResults_cases canvas buf results)
    as [(Hd & ->) | [(Hd & Ha & ->) | [(Hd & Hshort & ->) |
        (Hd & lm & others & raw & stable & Hhand & Hlong & _ & _ & ->)]]];
    cbn [fst]; trivial.
  apply buffer_update_length, Hlen.
Qed.

(** X14. Two drawn frames in a row whose hands are classified alike settle
    the output: whatever a buffer of at most three labels held, the second
    frame hands on that label, with the second frame's palm centre. *)
Theorem two_equal_frames_settle_the_output (canvas : Canvas)
    (buf : list GestureType) (r1 r2 : Results) (lm1 lm2 : list Landmark)
    (others1 others2 : list (list Landmark)) (g : GestureType) :
  length buf <= 3 ->
  drawn canvas r1 -> drawn canvas r2 ->
  r1.(multiHandLandmarks) = Some (lm1 :: others1) ->
  r2.(multiHandLandmarks) = Some (lm2 :: others2) ->
  9 < length lm1 -> 9 < length lm2 ->
  detectGesture (Some lm1) = Ok g ->
  detectGesture (Some lm2) = Ok g ->
  snd (processResults canvas (fst (processResults canvas buf r1)) r2)
  = Ok [(g, mkPosition (landmark lm2 9).(x) (landmark lm2 9).(y))].
Proof.
  intros Hlen Hd1 Hd2 Hh1 Hh2 Hl1 Hl2 Hg1 Hg2.
  destruct (processResults_hand buf Hd1 Hh1 Hl1)
    as (raw1 & stable1 & Hraw1 & _ & ->).
  cbn [fst].
  destruct (processResults_hand (buffer_update buf raw1) Hd2 Hh2 Hl2)
    as (raw2 & stable2 & Hraw2 & Hstable2 & ->).
  cbn [snd].
  assert (raw1 = g) by congruence. assert (raw2 = g) by congruence. subst.
  rewrite (@two_updates_settle buf g Hlen) in Hstable2.
  inversion Hstable2; subst. reflexivity.
Qed.
End TrackerMore.

(** ** The App state *)

Section AppFacts.
Context {M : JSMath}.

Lemma handleGestureUpdate_settings (prev : AppState) (handPos : Position)
    (g : GestureType) (position : Position) :
  same_settings prev (fst (handleGestureUpdate prev handPos g position))
  /\ gesture (fst (handleGestureUpdate prev handPos g position)) = g
  /\ snd (handleGestureUpdate prev handPos g position) = position.
Proof.
  unfold handleGestureUpdate, same_settings. cbn [fst snd].
  destruct (GestureType_eq_dec (gesture prev) g); cbn; repeat split; trivial.
Qed.

(** X15. After any frame the App state differs from the one before in its
    [gesture] at most.  After a frame that called [onGestureDetected] the
    App's gesture is the label of that call and [handPosRef.current] its
    position; after a frame that returned early or raised, the App state and
    [handPosRef.current] are what they were. *)
Theorem App_follows_the_tracker (canvas : Canvas) (buf : list GestureType)
    (app : AppState) (handPos : Position) (results : Results) :
  same_settings app (fst (snd (App_frame canvas (buf, (app, handPos)) results)))
  /\ (forall g position,
        snd (processResults canvas buf results) = Ok [(g, position)] ->
        gesture (fst (snd (App_frame canvas (buf, (app, handPos)) results))) = g
        /\ snd (snd (App_frame canvas (buf, (app, handPos)) results)) = position)
  /\ (snd (processResults canvas buf results) = TypeError
      \/ snd (processResults canvas buf results) = Ok [] ->
      snd (App_frame canvas (buf, (app, handPos)) results) = (app, handPos)).
Proof.
  assert (Hrefl : same_settings app app) by (unfold same_settings; tauto).
  unfold App_frame. cbn [fst snd].
  destruct (processResults_cases canvas buf results)
    as [(Hd & ->) | [(Hd & Ha & ->) | [(Hd & Hshort & ->) |
        (Hd & lm & others & raw & stable & Hhand & Hlong & _ & _ & ->)]]];
    cbn [fst snd deliver fold_left].
  - repeat split; trivial; discriminate.
  - pose proof (handleGestureUpdate_settings app handPos NONE (mkPosition 0.5 0.5))
      as (Hs & Hg & Hp).
    split; [exact Hs|]. split.
    + intros g position [= <- <-]. auto.
    + intros [|]; discriminate.
  - repeat split; trivial; discriminate.
  - pose proof (handleGestureUpdate_settings app handPos stable
                  (mkPosition (landmark lm 9).(x) (landmark lm 9).(y)))
      as (Hs & Hg & Hp).
    split; [exact Hs|]. split.
    + intros g position [= <- <-]. auto.
    + intros [|]; discriminate.
Qed.
End AppFacts.

(** ** The zoom factor *)

Lemma SFcompare_antisym (a b : spec_float) :
  SFcompare b a = option_map CompOpp (SFcompare a b).
Proof.
  destruct a as [sa|sa| |sa ma ea], b as [sb|sb| |sb mb eb]; cbn;
    try reflexivity;
    try (destruct sa; reflexivity); try (destruct sb; reflexivity);
    try (destruct sa, sb; reflexivity).
  destruct sa, sb; try reflexivity; f_equal;
    rewrite (Z.compare_antisym ea eb);
    destruct (ea ?= eb)%Z; cbn; try reflexivity.
  - rewrite <- (Pos.compare_cont_antisym _ _ Eq). reflexivity.
  - rewrite <- (Pos.compare_cont_antisym _ _ Eq). cbn.
    destruct (Pos.compare_cont Eq ma mb); reflexivity.
Qed.

Lemma ltb_implies_leb (a b : float) :
  (a <? b)%float = true -> (a <=? b)%float = true.
Proof.
  rewrite ltb_spec, leb_spec. unfold SFltb, SFleb.
  destruct (SFcompare (Prim2SF a) (Prim2SF b)) as [[]|]; congruence.
Qed.

Lemma ltb_asym (a b : float) :
  (a <? b)%float = true -> (b <? a)%float = false.
Proof.
  rewrite !ltb_spec. unfold SFltb.
  rewrite (SFcompare_antisym (Prim2SF a) (Prim2SF b)).
  destruct (SFcompare (Prim2SF a) (Prim2SF b)) as [[]|]; cbn; congruence.
Qed.

Lemma not_ltb_implies_leb (a b : float) :
  is_nan a = false -> is_nan b = false ->
  (a <? b)%float = false -> (b <=? a)%float = true.
Proof.
  unfold is_nan. rewrite !eqb_spec, ltb_spec, leb_spec.
  unfold SFeqb, SFltb, SFleb.
  rewrite (SFcompare_antisym (Prim2SF a) (Prim2SF b)).
  intros Ha Hb.
  destruct (SFcompare (Prim2SF a) (Prim2SF b)) as [[]|] eqn:Hc; cbn;
    try congruence.
  intros _. exfalso.
  destruct (Prim2SF a), (Prim2SF b); cbn in Ha, Hb, Hc; discriminate.
Qed.

(** The clamp of the PINCH case, on any number. *)
Lemma clamp_cases (v : float) :
  Math_max 0.4 (Math_min 5 v) =
    if is_nan v then nan
    else if (5 <? v)%float then 5%float
    else if (0.4 <? v)%float then v
    else 0.4%float.
Proof.
  unfold Math_max, Math_min.
  change (is_nan 5) with false. change (is_nan 0.4) with false.
  change (get_sign 5) with false. change (get_sign 0.4) with false.
  cbn [orb].
  destruct (is_nan v) eqn:Hnan; [reflexivity|].
  destruct (5 <? v)%float eqn:H5.
  - reflexivity.
  - assert (Hm : (if (v <? 5)%float then v else v) = v)
      by (destruct (v <? 5)%float; reflexivity).
    rewrite Hm, Hnan.
    destruct (0.4 <? v)%float eqn:H04; [reflexivity|].
    destruct (v <? 0.4)%float; reflexivity.
Qed.

(** X16. The zoom factor of the PINCH gesture is NaN only when the value
    computed from the hand's [y] is; otherwise it lies between 0.4 and 5,
    and it is that value itself when the value lies strictly between
    them. *)
Theorem zoom_factor_is_clamped (y : float) :
  (is_nan (scaleVal y) = true -> is_nan (clampedScale y) = true)
  /\ (is_nan (scaleVal y) = false ->
      (0.4 <=? clampedScale y)%float = true
      /\ (clampedScale y <=? 5)%float = true)
  /\ ((0.4 <? scaleVal y)%float = true -> (scaleVal y <? 5)%float = true ->
      clampedScale y = scaleVal y).
Proof.
  unfold clampedScale. rewrite clamp_cases.
  generalize (scaleVal y). intros v.
  destruct (is_nan v) eqn:Hnan.
  - repeat split; try discriminate.
    intros Hlo _. unfold is_nan in Hnan.
    rewrite ltb_spec in Hlo. rewrite eqb_spec in Hnan.
    unfold SFltb, SFeqb in *.
    destruct (Prim2SF v); cbn in Hlo, Hnan; try discriminate.
    + destruct s; discriminate.
    + exfalso. clear Hlo. revert Hnan. destruct s; rewrite Z.compare_refl;
        cbn; rewrite Pos.compare_cont_refl; discriminate.
  - destruct (5 <? v)%float eqn:H5.
    + repeat split; try discriminate; try reflexivity.
      intros _ Hhi. rewrite (ltb_asym Hhi) in H5. discriminate.
    + destruct (0.4 <? v)%float eqn:H04.
      * repeat split; try discriminate.
        -- apply ltb_implies_leb, H04.
        -- apply not_ltb_implies_leb; trivial.
      * repeat split; try discriminate; reflexivity.
Qed.

(** ** Concrete frames, continued *)

(** X1, at the hand with index, middle and ring raised. *)
Lemma THREE_FINGERS_exactly_witness :
  detectGesture (M:=ieee_Math) (Some small_three_fingers) = Ok THREE_FINGERS.
Proof.
  apply (@THREE_FINGERS_exactly ieee_Math small_three_fingers);
    [cbv; lia | repeat split; reflexivity].
Defined.

(** X2, at the hand with index and middle raised. *)
Lemma TWO_FINGERS_exactly_witness :
  detectGesture (M:=ieee_Math) (Some small_two_fingers) = Ok TWO_FINGERS.
Proof.
  apply (@TWO_FINGERS_exactly ieee_Math small_two_fingers);
    [cbv; lia | repeat split; reflexivity].
Defined.

(** X3, at the open hand. *)
Lemma OPEN_exactly_witness :
  all_extended open_hand = true
  /\ fist_criteria (M:=ieee_Math) open_hand = false.
Proof.
  apply (@OPEN_exactly ieee_Math open_hand); [cbv; lia | reflexivity].
Defined.

(** X4, at the open hand and the same hand at another depth, with one
    landmark more. *)
Lemma detectGesture_reads_nine_points_witness :
  detectGesture (M:=ieee_Math) (Some open_hand)
  = detectGesture (M:=ieee_Math) (Some deep_open_hand).
Proof.
  apply (@detectGesture_reads_nine_points ieee_Math open_hand deep_open_hand).
  - cbv; lia.
  - cbv; lia.
  - intros i Hi. cbn [read_indices In] in Hi.
    repeat (destruct Hi as [<-|Hi]; [split; reflexivity|]). destruct Hi.
Defined.

(** X5, at the open hand with its thumb tip on the palm and away from it. *)
Lemma thumb_only_decides_PINCH_witness :
  detectGesture (M:=ieee_Math) (Some open_hand)
  = detectGesture (M:=ieee_Math) (Some open_hand_thumb_out).
Proof.
  apply (@thumb_only_decides_PINCH ieee_Math open_hand open_hand_thumb_out).
  - cbv; lia.
  - cbv; lia.
  - intros i Hi Hthumb. cbn [read_indices In] in Hi.
    destruct Hi as [<-|Hi]; [congruence|].
    repeat (destruct Hi as [<-|Hi]; [split; reflexivity|]). destruct Hi.
  - discriminate.
  - discriminate.
Defined.

(** X6, at a buffer where OPEN holds two of three places. *)
Lemma strict_majority_wins_witness :
  stableGesture [OPEN; PUNCH; OPEN] = Ok OPEN.
Proof.
  apply (@strict_majority_wins [OPEN; PUNCH; OPEN] OPEN). cbv. reflexivity.
Defined.

(** X13, at a full buffer and a frame with the open hand. *)
Lemma buffer_never_exceeds_three_witness :
  length (fst (processResults (M:=ieee_Math) ready [PUNCH; PUNCH; PUNCH]
                 (one_hand open_hand))) <= 3.
Proof.
  apply (@buffer_never_exceeds_three ieee_Math). cbv; lia.
Defined.

(** X14, at a buffer full of PUNCH and two frames with the hand gathered at
    (0.25, 0.75), which is classified PINCH. *)
Lemma two_equal_frames_settle_the_output_witness :
  snd (processResults (M:=ieee_Math) ready
         (fst (processResults (M:=ieee_Math) ready [PUNCH; PUNCH; PUNCH]
                 (one_hand gathered_hand)))
         (one_hand gathered_hand))
  = Ok [(PINCH, mkPosition 0.25 0.75)].
Proof.
  apply (@two_equal_frames_settle_the_output ieee_Math ready
           [PUNCH; PUNCH; PUNCH] (one_hand gathered_hand)
           (one_hand gathered_hand) gathered_hand gathered_hand [] [] PINCH);
    try reflexivity; try (repeat split; reflexivity); cbv; lia.
Defined.
